(** * TidyBlocks value model (value.js): a shallow embedding

    The eleven value classes of [value.js] -- [ValueAbsent], [ValueMissing],
    [ValueRowNum], [ValueColumn], the four constants, and the three sampling
    values -- with their constructors, [equal] and [run] methods.

    JavaScript numbers are IEEE 754 binary64 values, so they are modelled
    by the Standard Library's [spec_float] with the binary64 parameters,
    NaN, infinities and signed zeros included.  An object is modelled by
    two [gmap] property tables, one for its own properties and one for the
    properties it inherits. *)

From Stdlib Require Import ZArith String Bool List Lia.
From Stdlib Require Import Floats.SpecFloat.
From stdpp Require Import base option gmap strings.

Set Warnings "-register-all".
Local Open Scope Z_scope.
Local Open Scope string_scope.

(** ** JavaScript data *)

Module Js.

(** A JavaScript number. *)
Definition float64 : Type := spec_float.

Definition prec : Z := 53.
Definition emax : Z := 1024.

Definition NaN : float64 := S754_nan.
Definition Infinity : float64 := S754_infinity false.
Definition zero : float64 := S754_zero false.
Definition negzero : float64 := S754_zero true.

(** The number denoted by an integer literal or an array index. *)
Definition of_Z (z : Z) : float64 := binary_normalize prec emax z 0 false.

Definition one : float64 := Eval vm_compute in of_Z 1.
Definition two : float64 := Eval vm_compute in of_Z 2.
(** 0.5, a typical draw of [random.next()]. *)
Definition half : float64 := Eval vm_compute in SFdiv prec emax one two.

Definition add : float64 -> float64 -> float64 := SFadd prec emax.
Definition sub : float64 -> float64 -> float64 := SFsub prec emax.
Definition mul : float64 -> float64 -> float64 := SFmul prec emax.

(** [x < y], [x <= y] and [x === y] on numbers; [x > y] is [lt y x] and
    [x >= y] is [le y x].  All are false when an operand is NaN. *)
Definition lt : float64 -> float64 -> bool := SFltb.
Definition le : float64 -> float64 -> bool := SFleb.
Definition eq : float64 -> float64 -> bool := SFeqb.

Definition is_nan (x : float64) : bool :=
  match x with S754_nan => true | _ => false end.

(** Neither NaN nor an infinity. *)
Definition is_finite (x : float64) : bool :=
  match x with S754_zero _ | S754_finite _ _ _ => true | _ => false end.

(** The values the program handles.  A function is known by its identity.
    An object carries its identity [ref] (strict equality on objects is
    identity), its date slot (present exactly for instances of [Date]; the
    time value is NaN for an invalid date), the table [props] of its own
    properties, and the table [inherited] of the properties it has through
    its prototype chain; each table gives the value that a read of the
    property on this object yields. *)
Inductive JsValue : Type :=
  | JUndefined
  | JNull
  | JBoolean (b : bool)
  | JNumber (x : float64)
  | JString (s : string)
  | JFunction (ref : nat)
  | JObject (ref : nat) (date : option float64)
            (props inherited : gmap string JsValue).

(** [typeof v] *)
Definition typeof (v : JsValue) : string :=
  match v with
  | JUndefined => "undefined"
  | JNull => "object"
  | JBoolean _ => "boolean"
  | JNumber _ => "number"
  | JString _ => "string"
  | JFunction _ => "function"
  | JObject _ _ _ _ => "object"
  end.

(** Truthiness, as tested by [if], [!] and [&&]. *)
Definition to_boolean (v : JsValue) : bool :=
  match v with
  | JUndefined | JNull => false
  | JBoolean b => b
  | JNumber (S754_zero _) | JNumber S754_nan => false
  | JNumber _ => true
  | JString EmptyString => false
  | JString _ => true
  | JFunction _ => true
  | JObject _ _ _ _ => true
  end.

(** [a === b] *)
Definition strict_equal (a b : JsValue) : bool :=
  match a, b with
  | JUndefined, JUndefined => true
  | JNull, JNull => true
  | JBoolean x, JBoolean y => Bool.eqb x y
  | JNumber x, JNumber y => eq x y
  | JString x, JString y => String.eqb x y
  | JFunction r1, JFunction r2 => Nat.eqb r1 r2
  | JObject r1 _ _ _, JObject r2 _ _ _ => Nat.eqb r1 r2
  | _, _ => false
  end.

(** [v instanceof Date] *)
Definition instanceof_Date (v : JsValue) : bool :=
  match v with
  | JObject _ (Some _) _ _ => true
  | _ => false
  end.

(** [v] is an object: not a primitive, not [null], and not a function
    (whose [typeof] is ['function']). *)
Definition is_object (v : JsValue) : bool :=
  match v with
  | JObject _ _ _ _ => true
  | _ => false
  end.

(** The property [key] of an object with the given tables: its own
    property if it has one, else the one it inherits. *)
Definition lookup_property (props inherited : gmap string JsValue)
    (key : string) : option JsValue :=
  match props !! key with
  | Some v => Some v
  | None => inherited !! key
  end.

(** [key in obj] and [obj[key]]: both see the inherited properties as well
    as the own ones. *)
Definition has_property (props inherited : gmap string JsValue)
    (key : string) : bool :=
  bool_decide (is_Some (lookup_property props inherited key)).

Definition get_property (props inherited : gmap string JsValue)
    (key : string) : JsValue :=
  default JUndefined (lookup_property props inherited key).

End Js.
Export Js.

(** ** Exceptions *)

(** The messages of the template literals handed to [util.check] and
    [util.fail], each with the values it interpolates.  [NotInRow] is
    [`${this.name} not in row ${i}`]; it records the index only, [name]
    being a field that no class of [value.js] sets. *)
Inductive Message : Type :=
  | MissingExpression
  | ColumnNameMustBeString
  | RowIndexOutOfRange (i : Z)
  | RowMustBeObject
  | NotInRow (i : Z)
  | DatetimeValueInvalid (value : JsValue)
  | LogicalValueInvalid (value : JsValue)
  | NumericValueInvalid (value : JsValue)
  | StringValueInvalid (value : JsValue)
  | RateMustBePositive (rate : JsValue)
  | MeanMustBeNumber (mean : JsValue)
  | StdDevMustBeNonNegative (stdDev : JsValue)
  | LowEndMustBeNumber (low : JsValue)
  | HighEndMustBeNumber (high : JsValue)
  | LowEndGreaterThanHighEnd (low high : JsValue).

(** What a call can throw: an [Error] raised by the utilities, or the
    [TypeError] of the language itself ([in] applied to [null]). *)
Inductive Exception : Type :=
  | Error (message : Message)
  | TypeError.

Inductive Result (A : Type) : Type :=
  | Ok (a : A)
  | Throw (e : Exception).
Arguments Ok {A} a.
Arguments Throw {A} e.

Definition bind {A B : Type} (r : Result A) (k : A -> Result B) : Result B :=
  match r with
  | Ok a => k a
  | Throw e => Throw e
  end.

Declare Scope result_scope.
Delimit Scope result_scope with result.
Notation "x <- r ;; k" := (bind r (fun x => k))
  (at level 100, r at next level, right associativity) : result_scope.
Notation "r ;; k" := (bind r (fun _ => k))
  (at level 100, right associativity) : result_scope.
Local Open Scope result_scope.

Definition is_ok {A : Type} (r : Result A) : bool :=
  match r with Ok _ => true | Throw _ => false end.

(** [r] fails: it throws instead of returning. *)
Definition throws {A : Type} (r : Result A) : Prop :=
  exists e, r = Throw e.

(** ** util.js *)

Module Util.

(** Modelled from the spec: [util.js] is not among the sources.  The
    constant [util.MISSING] is the explicit null-like value of the
    glossary. *)
Definition MISSING : JsValue := JNull.

(** Modelled from the spec: [util.fail(message)] raises an error carrying
    the message; errors are synchronous and not recoverable at the point
    raised. *)
Definition fail {A : Type} (message : Message) : Result A :=
  Throw (Error message).

(** Modelled from the spec: [util.check(condition, message)] fails with the
    message unless the condition holds. *)
Definition check (condition : bool) (message : Message) : Result unit :=
  if condition then Ok tt else fail message.

(** Modelled from the spec: [util.equal(left, right)] compares two
    payloads.  Two datetimes are equal when they have the same value (the
    same time), everything else is compared with [===]. *)
Definition equal (left right : JsValue) : bool :=
  match left, right with
  | JObject _ (Some t1) _ _, JObject _ (Some t2) _ _ => Js.eq t1 t2
  | _, _ => strict_equal left right
  end.

Section MakeDate.
(** [new Date(text)] for a string, supplied by the host. *)
Variable parseDate : string -> JsValue.

(** Modelled from the spec: [util.makeDate(value)] passes [MISSING] and
    [Date] objects through and converts a string to a date ("can be
    constructed from MISSING, a Date object, or a string that can be
    converted to a Date"); anything else is left for the caller's check
    to reject. *)
Definition makeDate (value : JsValue) : JsValue :=
  match value with
  | JString s => parseDate s
  | _ => value
  end.
End MakeDate.

End Util.

(** ** The random module *)

(** The interface of the external [random] package that [value.js] uses:
    the state of its underlying generator, the uniform draw [random.next()],
    and the samplers that [random.exponential(lambda)] and
    [random.normal(mu, sigma)] return.  The package builds a sampler for
    every parameter that passed the checks of the value's constructor, so
    building one is not a point of failure of the constructors below. *)
Class Random : Type := {
  Rng : Type;
  next : Rng -> float64 * Rng;
  exponential : float64 -> Rng -> float64 * Rng;
  normal : float64 -> float64 -> Rng -> float64 * Rng
}.

(** [0 <= u < 1] *)
Definition in_unit_interval (u : float64) : bool :=
  Js.le zero u && Js.lt u one.

(** Every draw of [random.next()] lies in [[0, 1)]. *)
Definition unit_draws (R : Random) : Prop :=
  forall rng : Rng, in_unit_interval (fst (next rng)) = true.

(** Modelled from the spec: the sampler that [random.uniform(min, max)]
    returns is not among the sources; it is the "linear scaling of a uniform
    draw into [[low, high]]", [random.next() * (max - min) + min]. *)
Definition uniform `{Random} (min max : float64) (rng : Rng) : float64 * Rng :=
  let (u, rng') := next rng in
  (Js.add (Js.mul u (Js.sub max min)) min, rng').

(** ** value.js *)

Module Value.

(** Indicate that persisted JSON is a value. *)
Definition FAMILY : string := "@value".

(** An instance of one of the value classes, with the fields its
    constructor stores.  The constructors of [ValueColumn] and of the
    sampling values check [typeof] of their arguments before storing
    them, so these fields have the checked type; the constants store
    [MISSING] or a value of their kind.  The sampler of a sampling value
    is the one the [random] module returns for the stored parameters. *)
Inductive Value : Type :=
  | ValueAbsent
  | ValueMissing
  | ValueRowNum
  | ValueColumn (value : string)
  | ValueDatetime (value : JsValue)
  | ValueLogical (value : JsValue)
  | ValueNumber (value : JsValue)
  | ValueText (value : JsValue)
  | ValueExponential (value : float64)
  | ValueNormal (mean stdDev : float64)
  | ValueUniform (low high : float64).

(** The [family] and [kind] handed to [super(...)]. *)
Definition family (this : Value) : string := FAMILY.

Definition kind (this : Value) : string :=
  match this with
  | ValueAbsent => "absent"
  | ValueMissing => "missing"
  | ValueRowNum => "rownum"
  | ValueColumn _ => "column"
  | ValueDatetime _ => "datetime"
  | ValueLogical _ => "logical"
  | ValueNumber _ => "number"
  | ValueText _ => "text"
  | ValueExponential _ => "exponential"
  | ValueNormal _ _ => "normal"
  | ValueUniform _ _ => "uniform"
  end.

(** [this.value], set by [ExprNullary]; undefined on the other classes. *)
Definition value (this : Value) : JsValue :=
  match this with
  | ValueColumn name => JString name
  | ValueDatetime v | ValueLogical v | ValueNumber v | ValueText v => v
  | ValueExponential rate => JNumber rate
  | _ => JUndefined
  end.

(** *** Constructors *)

(** [util.check(name && (typeof name === 'string'), ...)] *)
Definition new_ValueColumn (name : JsValue) : Result Value :=
  match name with
  | JString s =>
      Util.check (to_boolean name) ColumnNameMustBeString ;;
      Ok (ValueColumn s)
  | _ => Util.fail ColumnNameMustBeString
  end.

Section Datetime.
Variable parseDate : string -> JsValue.

Definition new_ValueDatetime (value : JsValue) : Result Value :=
  let value := Util.makeDate parseDate value in
  Util.check (strict_equal value Util.MISSING || instanceof_Date value)
             (DatetimeValueInvalid value) ;;
  Ok (ValueDatetime value).
End Datetime.

Definition new_ValueLogical (value : JsValue) : Result Value :=
  Util.check (strict_equal value Util.MISSING
              || String.eqb (typeof value) "boolean")
             (LogicalValueInvalid value) ;;
  Ok (ValueLogical value).

Definition new_ValueNumber (value : JsValue) : Result Value :=
  Util.check (strict_equal value Util.MISSING
              || String.eqb (typeof value) "number")
             (NumericValueInvalid value) ;;
  Ok (ValueNumber value).

Definition new_ValueText (value : JsValue) : Result Value :=
  Util.check (strict_equal value Util.MISSING
              || String.eqb (typeof value) "string")
             (StringValueInvalid value) ;;
  Ok (ValueText value).

(** [util.check((typeof rate === 'number') && (rate > 0), ...)] *)
Definition new_ValueExponential (rate : JsValue) : Result Value :=
  match rate with
  | JNumber r =>
      Util.check (Js.lt zero r) (RateMustBePositive rate) ;;
      Ok (ValueExponential r)
  | _ => Util.fail (RateMustBePositive rate)
  end.

(** [util.check(typeof mean === 'number', ...)], then
    [util.check((typeof stdDev === 'number') && (stdDev >= 0), ...)] *)
Definition new_ValueNormal (mean stdDev : JsValue) : Result Value :=
  match mean with
  | JNumber m =>
      match stdDev with
      | JNumber s =>
          Util.check (Js.le zero s) (StdDevMustBeNonNegative stdDev) ;;
          Ok (ValueNormal m s)
      | _ => Util.fail (StdDevMustBeNonNegative stdDev)
      end
  | _ => Util.fail (MeanMustBeNumber mean)
  end.

(** [util.check(typeof low === 'number', ...)], then
    [util.check(typeof high === 'number', ...)], then
    [util.check(low <= high, ...)] *)
Definition new_ValueUniform (low high : JsValue) : Result Value :=
  match low with
  | JNumber l =>
      match high with
      | JNumber h =>
          Util.check (Js.le l h) (LowEndGreaterThanHighEnd low high) ;;
          Ok (ValueUniform l h)
      | _ => Util.fail (HighEndMustBeNumber high)
      end
  | _ => Util.fail (LowEndMustBeNumber low)
  end.

(** *** equal *)

(** Modelled from the spec: [ExprBase.equal] is not among the sources;
    structural equality "compares operator identity", here the family and
    the kind. *)
Definition ExprBase_equal (this other : Value) : bool :=
  String.eqb (family this) (family other)
  && String.eqb (kind this) (kind other).

(** Modelled from the spec: [ExprNullary.equal] is not among the sources;
    "two values of the same variant and payload compare equal". *)
Definition ExprNullary_equal (this other : Value) : bool :=
  ExprBase_equal this other && Util.equal (value this) (value other).

(** [this.equal(other)]: the three parameterless classes and the two
    two-parameter sampling classes define it themselves, the classes
    extending [ExprNullary] inherit it. *)
Definition equal (this other : Value) : bool :=
  match this with
  | ValueAbsent =>
      match other with ValueAbsent => true | _ => false end
  | ValueMissing =>
      match other with ValueMissing => true | _ => false end
  | ValueRowNum =>
      match other with ValueRowNum => true | _ => false end
  | ValueNormal mean stdDev =>
      match other with
      | ValueNormal mean' stdDev' => Js.eq mean mean' && Js.eq stdDev stdDev'
      | _ => false
      end
  | ValueUniform low high =>
      match other with
      | ValueUniform low' high' => Js.eq low low' && Js.eq high high'
      | _ => false
      end
  | _ => ExprNullary_equal this other
  end.

(** *** run *)

Section Run.
Context `{R : Random}.

(** A call that draws nothing leaves the generator as it is. *)
Definition pure {A : Type} (r : Result A) (rng : Rng) : Result A * Rng :=
  (r, rng).

(** [this.generator()] *)
Definition sample (generator : Rng -> float64 * Rng) (rng : Rng)
  : Result JsValue * Rng :=
  let (x, rng') := generator rng in (Ok (JNumber x), rng').

(** [this.run(row, i, data)] *)
Definition run (this : Value) (row : JsValue) (i : Z) (data : list JsValue)
  : Rng -> Result JsValue * Rng :=
  match this with
  | ValueAbsent => pure (Util.fail MissingExpression)
  | ValueMissing => pure (Ok Util.MISSING)
  | ValueRowNum => pure (Ok (JNumber (of_Z i)))
  | ValueColumn value =>
      pure (Util.check ((0 <=? i)%Z && (i <? Z.of_nat (length data))%Z)
                       (RowIndexOutOfRange i) ;;
            Util.check (String.eqb (typeof row) "object") RowMustBeObject ;;
            match row with
            | JObject _ _ props inherited =>
                Util.check (has_property props inherited value) (NotInRow i) ;;
                Ok (get_property props inherited value)
            | _ => Throw TypeError
            end)
  | ValueDatetime value | ValueLogical value
  | ValueNumber value | ValueText value => pure (Ok value)
  | ValueExponential rate => sample (exponential rate)
  | ValueNormal mean stdDev => sample (normal mean stdDev)
  | ValueUniform low high => sample (uniform low high)
  end.
End Run.

End Value.
Export Value.

(** * Properties *)

(** ** Comparison of numbers *)



Lemma eq_refl_iff (x : float64) : Js.eq x x = negb (is_nan x).
Proof.
  unfold Js.eq, SFeqb.
  destruct x as [s|s| |s m e]; simpl; try reflexivity.
  - destruct s; reflexivity.
  - destruct s; rewrite Z.compare_refl, Pos.compare_cont_refl; reflexivity.
Qed.



(** ** A generator for concrete runs *)

(** A [random] module whose every draw is 0.5. *)
Definition fixed_random : Random :=
  {| Rng := unit;
     next := fun _ => (half, tt);
     exponential := fun _ _ => (one, tt);
     normal := fun mu _ _ => (mu, tt) |}.

Lemma fixed_random_unit_draws : unit_draws fixed_random.
Proof. intros []. reflexivity. Qed.

(** ** Checks *)

(** The constructor of [ValueColumn] succeeds exactly when the condition of
    its check, [name && (typeof name === 'string')], is truthy. *)
Lemma new_ValueColumn_condition (name : JsValue) :
  is_ok (new_ValueColumn name)
  = to_boolean name && String.eqb (typeof name) "string".
Proof.
  destruct name as [| |b|x|s|f|r d p q]; simpl; try reflexivity.
  - destruct b; reflexivity.
  - destruct x; reflexivity.
  - destruct s; reflexivity.
Qed.

Lemma in_range_reflect (i : Z) (data : list JsValue) :
  ((0 <=? i)%Z && (i <? Z.of_nat (length data))%Z = true)
  <-> (0 <= i < Z.of_nat (length data))%Z.
Proof. rewrite andb_true_iff, Z.leb_le, Z.ltb_lt. reflexivity. Qed.

(** ** Column *)

Section Column.
Context `{R : Random}.


(** C8: when the row is not an object, [Column(name).run(row, i, data)]
    fails for every index; with [i] in [[0, data.length)] it fails on the
    row itself: [Row must be object] for a primitive, and the [TypeError]
    of [in] for [null], whose [typeof] is ['object']. *)
Theorem column_run_non_object (name : string) (row : JsValue) (i : Z)
    (data : list JsValue) (rng : Rng) :
  is_object row = false ->
  throws (fst (run (ValueColumn name) row i data rng))
  /\ ((0 <= i < Z.of_nat (length data))%Z ->
      run (ValueColumn name) row i data rng
      = (Throw (match row with
                | JNull => TypeError
                | _ => Error RowMustBeObject
                end), rng)).
Proof.
  intros Hrow. unfold run, pure, throws. split.
  - destruct ((0 <=? i)%Z && (i <? Z.of_nat (length data))%Z); simpl;
      [| eauto].
    destruct row; simpl; try discriminate; eauto.
  - intros Hi. apply in_range_reflect in Hi. rewrite Hi.
    destruct row; simpl; try discriminate; reflexivity.
Qed.
End Column.

(** The methods of [Object.prototype], by name. *)
Definition Object_prototype_methods : gmap string JsValue :=
  list_to_map
    [ ("constructor", JFunction 1); ("hasOwnProperty", JFunction 2);
      ("isPrototypeOf", JFunction 3); ("propertyIsEnumerable", JFunction 4);
      ("toLocaleString", JFunction 5); ("toString", JFunction 6);
      ("valueOf", JFunction 7); ("__defineGetter__", JFunction 8);
      ("__defineSetter__", JFunction 9); ("__lookupGetter__", JFunction 10);
      ("__lookupSetter__", JFunction 11) ].

(** [Object.prototype]: its own properties are its methods and [__proto__],
    which reads as [null] on it; it inherits nothing. *)
Definition Object_prototype : JsValue :=
  JObject 12 None (<[ "__proto__" := JNull ]> Object_prototype_methods) ∅.

(** What an object literal inherits: the methods of [Object.prototype], and
    [__proto__], which reads as [Object.prototype] on it. *)
Definition Object_inherited : gmap string JsValue :=
  <[ "__proto__" := Object_prototype ]> Object_prototype_methods.

(** The row [{x: 1}]. *)
Definition row_x : JsValue :=
  JObject 0 None {[ "x" := JNumber one ]} Object_inherited.



Lemma column_run_non_object_witness :
  run (R := fixed_random) (ValueColumn "x") (JNumber one) 0 [row_x] tt
  = (Throw (Error RowMustBeObject), tt).
Proof.
  apply (proj2 (column_run_non_object (R := fixed_random)
                  "x" (JNumber one) 0 [row_x] tt eq_refl)).
  simpl. lia.
Defined.

(** C9: constructing [Column(name)] succeeds exactly when [name] is a
    non-empty string, and then yields the column value for that name; any
    other argument fails with [Column name must be string].  The constructor
    takes no table, so no column is looked up at construction. *)
Theorem column_construction (name : JsValue) :
  (is_ok (new_ValueColumn name) = true
   <-> exists s, name = JString s /\ s <> EmptyString)
  /\ (forall s, name = JString s -> s <> EmptyString ->
                new_ValueColumn name = Ok (ValueColumn s))
  /\ (is_ok (new_ValueColumn name) = false ->
      new_ValueColumn name = Throw (Error ColumnNameMustBeString)).
Proof.
  repeat split.
  - destruct name as [| |b|x|s|f|r d p q]; simpl; try discriminate.
    destruct s; simpl; [discriminate |]. intros _. eexists.
    split; [reflexivity | discriminate].
  - intros [s [-> Hs]]. destruct s; [congruence | reflexivity].
  - intros s -> Hs. destruct s; [congruence | reflexivity].
  - destruct name as [| |b|x|s|f|r d p q]; simpl; try reflexivity.
    destruct s; simpl; [reflexivity | discriminate].
Qed.

Lemma column_construction_witness :
  new_ValueColumn (JString "x") = Ok (ValueColumn "x")
  /\ new_ValueColumn (JString EmptyString)
     = Throw (Error ColumnNameMustBeString).
Proof.
  split.
  - apply (proj1 (proj2 (column_construction (JString "x"))) "x" eq_refl).
    discriminate.
  - apply (proj2 (proj2 (column_construction (JString EmptyString)))).
    reflexivity.
Defined.

(** ** Absent, RowNum and the constants *)

Section Constants.
Context `{R : Random}.
Variable parseDate : string -> JsValue.

(** C5: evaluating an [Absent] value fails, whatever the row, the index
    and the table (it raises [Missing expression] and returns nothing);
    and [Absent.equal(other)] is true exactly when [other] is an [Absent]
    value too. *)
Theorem absent_run_fails_equal_absent (other : Value) (row : JsValue) (i : Z)
    (data : list JsValue) (rng : Rng) :
  run ValueAbsent row i data rng = (Throw (Error MissingExpression), rng)
  /\ throws (fst (run ValueAbsent row i data rng))
  /\ (equal ValueAbsent other = true <-> other = ValueAbsent).
Proof.
  split; [reflexivity |]. split; [eexists; reflexivity |].
  destruct other; simpl; split; congruence.
Qed.

(** [RowNum.run(row, i, data)] returns the index it is given. *)
Lemma rownum_run (row : JsValue) (i : Z) (data : list JsValue) (rng : Rng) :
  run ValueRowNum row i data rng = (Ok (JNumber (of_Z i)), rng).
Proof. reflexivity. Qed.

(** C6: a constant returns exactly its stored payload, whatever the row,
    the index and the table: a [Logical], [Number] or [Text] value returns
    the argument it was constructed from, a [Datetime] value the date made
    from its argument, and the [Missing] value returns [MISSING]. *)
Theorem constant_run_payload (x : JsValue) (v : Value) (row : JsValue)
    (i : Z) (data : list JsValue) (rng : Rng) :
  (new_ValueLogical x = Ok v \/ new_ValueNumber x = Ok v
   \/ new_ValueText x = Ok v ->
   value v = x /\ run v row i data rng = (Ok x, rng))
  /\ (new_ValueDatetime parseDate x = Ok v ->
      value v = Util.makeDate parseDate x
      /\ run v row i data rng = (Ok (Util.makeDate parseDate x), rng))
  /\ run ValueMissing row i data rng = (Ok Util.MISSING, rng).
Proof.
  unfold new_ValueLogical, new_ValueNumber, new_ValueText, new_ValueDatetime.
  split; [| split; [| reflexivity]].
  - intros [H | [H | H]];
      destruct (_ || _) in H; simpl in H; try discriminate;
      injection H as <-; split; reflexivity.
  - intros H. destruct (_ || _) in H; simpl in H; try discriminate.
    injection H as <-. split; reflexivity.
Qed.

(** C10: each constant constructor accepts [MISSING], and the value it
    makes returns [MISSING] for every row, index and table. *)
Theorem constants_accept_missing (row : JsValue) (i : Z)
    (data : list JsValue) (rng : Rng) :
  (new_ValueDatetime parseDate Util.MISSING = Ok (ValueDatetime Util.MISSING)
   /\ run (ValueDatetime Util.MISSING) row i data rng = (Ok Util.MISSING, rng))
  /\ (new_ValueLogical Util.MISSING = Ok (ValueLogical Util.MISSING)
      /\ run (ValueLogical Util.MISSING) row i data rng
         = (Ok Util.MISSING, rng))
  /\ (new_ValueNumber Util.MISSING = Ok (ValueNumber Util.MISSING)
      /\ run (ValueNumber Util.MISSING) row i data rng
         = (Ok Util.MISSING, rng))
  /\ (new_ValueText Util.MISSING = Ok (ValueText Util.MISSING)
      /\ run (ValueText Util.MISSING) row i data rng
         = (Ok Util.MISSING, rng)).
Proof. repeat split. Qed.
End Constants.

Lemma constant_run_payload_witness :
  run (R := fixed_random) (ValueNumber (JNumber two)) row_x 0 [row_x] tt
  = (Ok (JNumber two), tt).
Proof.
  apply (proj1 (constant_run_payload (R := fixed_random) (fun _ => JNull)
                  (JNumber two) (ValueNumber (JNumber two)) row_x 0 [row_x] tt)).
  right. left. reflexivity.
Defined.

(** C2, where the code departs from the claim: the first row of a table has
    index 0 -- the index at which [Column.run] finds it, an index of 1
    being out of range for a table of one row -- and on that row [RowNum]
    yields 0, not the 1-based row number 1. *)
Theorem rownum_first_row_is_zero :
  run (R := fixed_random) ValueRowNum row_x 0 [row_x] tt
  = (Ok (JNumber zero), tt)
  /\ run (R := fixed_random) (ValueColumn "x") row_x 0 [row_x] tt
     = (Ok (JNumber one), tt)
  /\ run (R := fixed_random) (ValueColumn "x") row_x 1 [row_x] tt
     = (Throw (Error (RowIndexOutOfRange 1)), tt).
Proof. repeat split. Qed.

(** ** Construction *)










(** ** Equality *)










(** ** Sampling a uniform distribution *)

(** A draw in [[0, 1)] is neither NaN nor infinite, and is negative only
    when it is the negative zero. *)
Lemma unit_interval_draw (u : float64) :
  in_unit_interval u = true ->
  (exists s, u = S754_zero s) \/ (exists m e, u = S754_finite false m e).
Proof.
  unfold in_unit_interval. intros H. apply andb_true_iff in H as [H0 H1].
  destruct u as [s|s| |s m e]; eauto.
  - destruct s; discriminate.
  - discriminate.
  - destruct s; [discriminate | eauto].
Qed.

Lemma sub_diag (x : float64) : is_finite x = true -> Js.sub x x = zero.
Proof.
  destruct x as [s|s| |s m e]; simpl; try discriminate; intros _.
  - destruct s; reflexivity.
  - unfold Js.sub, SFsub. rewrite Z.sub_diag. reflexivity.
Qed.

(** Scaling a draw by a zero range and shifting it by [min] gives [min],
    up to the sign of a zero. *)
Lemma scale_zero_range (u min : float64) :
  in_unit_interval u = true -> is_finite min = true ->
  Js.eq (Js.add (Js.mul u zero) min) min = true
  /\ (min <> negzero -> Js.add (Js.mul u zero) min = min).
Proof.
  intros Hu Hmin.
  destruct (unit_interval_draw u Hu) as [[s ->] | (m & e & ->)];
    destruct min as [s'|s'| |s' m' e']; try discriminate Hmin;
    unfold negzero, zero; simpl.
  - destruct s, s'; simpl;
      (split; [reflexivity | intros H; try reflexivity; now contradiction H]).
  - split; [apply (eq_refl_iff (S754_finite s' m' e')) | reflexivity].
  - destruct s'; simpl;
      (split; [reflexivity | intros H; try reflexivity; now contradiction H]).
  - split; [apply (eq_refl_iff (S754_finite s' m' e')) | reflexivity].
Qed.

(** With the negative zero for [min], the sign of the result is the sign
    of the draw: the negative zero for a draw of the negative zero, the
    positive zero for every other draw. *)
Lemma scale_zero_range_negzero (u : float64) :
  in_unit_interval u = true ->
  Js.add (Js.mul u zero) negzero
  = match u with S754_zero true => negzero | _ => zero end.
Proof.
  intros Hu.
  destruct (unit_interval_draw u Hu) as [[s ->] | (m & e & ->)].
  - destruct s; reflexivity.
  - reflexivity.
Qed.

(** C7, as amended: a [Uniform(low, high)] value whose bounds are equal and
    finite is constructed, and every evaluation of it returns a number that
    is [===] to [low]: [low] itself unless [low] is the negative zero, and
    then a zero, the negative one when the draw is the negative zero and
    the positive one otherwise; in particular [Uniform(2, 2)] always
    samples exactly 2. *)
Theorem uniform_equal_bounds (R : Random) (low : float64) (row : JsValue)
    (i : Z) (data : list JsValue) (rng : Rng) :
  unit_draws R ->
  is_finite low = true ->
  new_ValueUniform (JNumber low) (JNumber low) = Ok (ValueUniform low low)
  /\ (exists x, fst (run (ValueUniform low low) row i data rng) = Ok (JNumber x)
                /\ strict_equal (JNumber x) (JNumber low) = true
                /\ (low <> negzero -> x = low)
                /\ (low = negzero ->
                    x = match fst (next rng) with
                        | S754_zero true => negzero
                        | _ => zero
                        end))
  /\ fst (run (ValueUniform two two) row i data rng) = Ok (JNumber two).
Proof.
  intros Hdraws Hlow.
  assert (Hsample : forall min, is_finite min = true ->
            exists x, fst (run (ValueUniform min min) row i data rng)
                      = Ok (JNumber x)
                      /\ Js.eq x min = true /\ (min <> negzero -> x = min)
                      /\ (min = negzero ->
                          x = match fst (next rng) with
                              | S754_zero true => negzero
                              | _ => zero
                              end)).
  { intros min Hmin. unfold run, sample, uniform.
    specialize (Hdraws rng). destruct (next rng) as [u rng']. simpl in *.
    rewrite (sub_diag min Hmin).
    destruct (scale_zero_range u min Hdraws Hmin) as [Heq Hsame].
    eexists. split; [reflexivity |]. split; [assumption |].
    split; [assumption |].
    intros ->. apply (scale_zero_range_negzero u Hdraws). }
  split; [| split].
  - simpl. replace (Js.le low low) with true; [reflexivity |].
    destruct low as [s|s| |s m e]; try discriminate Hlow.
    + reflexivity.
    + unfold Js.le, SFleb. simpl.
      destruct s; rewrite Z.compare_refl, Pos.compare_cont_refl; reflexivity.
  - destruct (Hsample low Hlow) as (x & Hx & Heq & Hsame & Hneg). eauto 6.
  - destruct (Hsample two eq_refl) as (x & Hx & _ & Hsame & _).
    rewrite Hx, Hsame; [reflexivity | discriminate].
Qed.

Lemma uniform_equal_bounds_witness :
  fst (run (R := fixed_random) (ValueUniform two two) row_x 0 [row_x] tt)
  = Ok (JNumber two).
Proof.
  apply (proj2 (proj2 (uniform_equal_bounds fixed_random two row_x 0 [row_x] tt
                         fixed_random_unit_draws eq_refl))).
Defined.

(** C7 as stated fails: [Uniform(Infinity, Infinity)] is constructed, its
    bounds are equal, and it samples NaN, since [Infinity - Infinity] is
    NaN. *)
Lemma uniform_infinite_bounds_sample_NaN :
  new_ValueUniform (JNumber Infinity) (JNumber Infinity)
  = Ok (ValueUniform Infinity Infinity)
  /\ run (R := fixed_random) (ValueUniform Infinity Infinity) row_x 0 [row_x] tt
     = (Ok (JNumber NaN), tt)
  /\ strict_equal (JNumber NaN) (JNumber Infinity) = false.
Proof. repeat split. Qed.


(** * Further properties of value.js *)

(** ** Evaluating a column *)

Section ColumnEdges.
Context `{R : Random}.

(** The index is checked first: with [i] outside [[0, data.length)] the
    call fails with [Row index ... out of range] whatever the row and the
    column name are -- so every lookup in an empty table fails that way. *)
Theorem column_run_index_checked_first (name : string) (row : JsValue) (i : Z)
    (data : list JsValue) (rng : Rng) :
  ~ (0 <= i < Z.of_nat (length data))%Z ->
  run (ValueColumn name) row i data rng
  = (Throw (Error (RowIndexOutOfRange i)), rng).
Proof.
  intros Hi. unfold run, pure.
  destruct ((0 <=? i)%Z && (i <? Z.of_nat (length data))%Z) eqn:Hc.
  - apply in_range_reflect in Hc. contradiction.
  - reflexivity.
Qed.

(** A lookup that returns a value returned a property of the row: the row
    was an object that has or inherits [name], the value is what reading
    [name] on it yields, the index was in range, and the generator was not
    used. *)
Theorem column_run_ok_inv (name : string) (row : JsValue) (i : Z)
    (data : list JsValue) (rng rng' : Rng) (v : JsValue) :
  run (ValueColumn name) row i data rng = (Ok v, rng') ->
  rng' = rng
  /\ (0 <= i < Z.of_nat (length data))%Z
  /\ exists ref date props inherited,
       row = JObject ref date props inherited
       /\ lookup_property props inherited name = Some v.
Proof.
  unfold run, pure.
  destruct ((0 <=? i)%Z && (i <? Z.of_nat (length data))%Z) eqn:Hc;
    simpl; [| discriminate].
  apply in_range_reflect in Hc.
  destruct row as [| |?|?|?|?|ref date props inherited]; simpl;
    try discriminate.
  unfold has_property, get_property.
  destruct (lookup_property props inherited name) as [x |] eqn:Hx.
  - rewrite bool_decide_eq_true_2 by eauto. simpl. intros [= <- <-].
    repeat split; try lia. eauto 6.
  - rewrite bool_decide_eq_false_2 by (intros [? ?]; discriminate).
    discriminate.
Qed.
End ColumnEdges.

Lemma column_run_index_checked_first_witness :
  run (R := fixed_random) (ValueColumn "x") row_x 0 [] tt
  = (Throw (Error (RowIndexOutOfRange 0)), tt).
Proof.
  apply (column_run_index_checked_first (R := fixed_random) "x" row_x 0 [] tt).
  simpl. lia.
Defined.

Lemma column_run_ok_inv_witness :
  (0 <= 0 < Z.of_nat (length [row_x]))%Z.
Proof.
  apply (column_run_ok_inv (R := fixed_random) "x" row_x 0 [row_x] tt tt
           (JNumber one) eq_refl).
Defined.

(** ** Which evaluations fail, and which draw *)

(** The sampling classes: those whose [run] calls [this.generator()]. *)
Definition is_sampling (v : Value) : bool :=
  match v with
  | ValueExponential _ | ValueNormal _ _ | ValueUniform _ _ => true
  | _ => false
  end.

Section Evaluation.
Context `{R : Random}.

(** Only [Absent] and [Column] values can fail when they are run: every
    other value returns a result for every row, index and table. *)
Theorem run_fails_only_absent_column (v : Value) (row : JsValue) (i : Z)
    (data : list JsValue) (rng : Rng) :
  v <> ValueAbsent ->
  (forall name, v <> ValueColumn name) ->
  is_ok (fst (run v row i data rng)) = true.
Proof.
  intros Habsent Hcolumn.
  destruct v; try reflexivity.
  - contradiction.
  - now contradiction (Hcolumn value0).
  - unfold run, sample. destruct (exponential _ rng). reflexivity.
  - unfold run, sample. destruct (normal _ _ rng). reflexivity.
  - unfold run, sample. destruct (uniform _ _ rng). reflexivity.
Qed.

(** A value that is not of a sampling class never draws: running it leaves
    the generator as it was, and its outcome is the same in every state of
    the generator. *)
Theorem run_non_sampling_keeps_generator (v : Value) (row : JsValue) (i : Z)
    (data : list JsValue) (rng rng2 : Rng) :
  is_sampling v = false ->
  snd (run v row i data rng) = rng
  /\ fst (run v row i data rng) = fst (run v row i data rng2).
Proof.
  intros Hv. destruct v; try discriminate Hv; split; reflexivity.
Qed.
End Evaluation.

Lemma run_fails_only_absent_column_witness :
  is_ok (fst (run (R := fixed_random) ValueRowNum JUndefined 5 [] tt)) = true.
Proof.
  apply (run_fails_only_absent_column (R := fixed_random)
           ValueRowNum JUndefined 5 [] tt); discriminate.
Defined.

Lemma run_non_sampling_keeps_generator_witness :
  snd (run (R := fixed_random) (ValueColumn "x") row_x 0 [row_x] tt) = tt.
Proof.
  apply (proj1 (run_non_sampling_keeps_generator (R := fixed_random)
                  (ValueColumn "x") row_x 0 [row_x] tt tt eq_refl)).
Defined.

(** ** Construction: accepted payloads, order of the checks, invariants *)

(** [Logical] accepts exactly [MISSING] and the two booleans, [Text] exactly
    [MISSING] and the strings -- the empty string included, unlike a column
    name -- and each rejection names the offending value. *)
Theorem logical_text_construction (value : JsValue) :
  (is_ok (new_ValueLogical value) = true
   <-> value = Util.MISSING \/ exists b, value = JBoolean b)
  /\ (is_ok (new_ValueText value) = true
      <-> value = Util.MISSING \/ exists s, value = JString s)
  /\ (is_ok (new_ValueLogical value) = false ->
      new_ValueLogical value = Throw (Error (LogicalValueInvalid value)))
  /\ (is_ok (new_ValueText value) = false ->
      new_ValueText value = Throw (Error (StringValueInvalid value)))
  /\ new_ValueText (JString EmptyString) = Ok (ValueText (JString EmptyString))
  /\ new_ValueColumn (JString EmptyString)
     = Throw (Error ColumnNameMustBeString).
Proof.
  unfold Util.MISSING.
  split; [| split; [| split; [| split; [| split]]]]; try reflexivity.
  - destruct value; simpl; split; try discriminate; eauto;
      intros [H | [? H]]; discriminate H.
  - destruct value; simpl; split; try discriminate; eauto;
      intros [H | [? H]]; discriminate H.
  - destruct value; simpl; try discriminate; reflexivity.
  - destruct value; simpl; try discriminate; reflexivity.
Qed.

Lemma logical_text_construction_witness :
  new_ValueLogical (JNumber one)
  = Throw (Error (LogicalValueInvalid (JNumber one))).
Proof.
  apply (proj1 (proj2 (proj2 (logical_text_construction (JNumber one))))).
  reflexivity.
Defined.

(** The constructors with two parameters report the first check that fails,
    in the order the checks are written: [Uniform] the low end, then the
    high end, then their order; [Normal] the mean, then the standard
    deviation. *)
Theorem two_parameter_check_order (a b : JsValue) :
  (typeof a <> "number" ->
   new_ValueUniform a b = Throw (Error (LowEndMustBeNumber a))
   /\ new_ValueNormal a b = Throw (Error (MeanMustBeNumber a)))
  /\ (typeof a = "number" -> typeof b <> "number" ->
      new_ValueUniform a b = Throw (Error (HighEndMustBeNumber b))
      /\ new_ValueNormal a b = Throw (Error (StdDevMustBeNonNegative b)))
  /\ (typeof a = "number" -> typeof b = "number" ->
      (is_ok (new_ValueUniform a b) = false ->
       new_ValueUniform a b = Throw (Error (LowEndGreaterThanHighEnd a b)))
      /\ (is_ok (new_ValueNormal a b) = false ->
          new_ValueNormal a b = Throw (Error (StdDevMustBeNonNegative b)))).
Proof.
  split; [| split].
  - intros Ha. destruct a; simpl in *; try (split; reflexivity).
    congruence.
  - intros Ha Hb. destruct a; simpl in Ha; try discriminate Ha.
    destruct b; simpl in *; try (split; reflexivity). congruence.
  - intros Ha Hb. destruct a as [| |?|x|?|?|? ? ? ?]; simpl in Ha;
      try discriminate Ha.
    destruct b as [| |?|y|?|?|? ? ? ?]; simpl in Hb; try discriminate Hb.
    simpl. split.
    + destruct (Js.le x y); simpl; [discriminate | reflexivity].
    + destruct (Js.le zero y); simpl; [discriminate | reflexivity].
Qed.

Lemma two_parameter_check_order_witness :
  new_ValueUniform JUndefined (JString "high")
  = Throw (Error (LowEndMustBeNumber JUndefined))
  /\ new_ValueNormal (JNumber one) JNull
     = Throw (Error (StdDevMustBeNonNegative JNull)).
Proof.
  split.
  - apply (proj1 (proj1 (two_parameter_check_order
                           JUndefined (JString "high")) ltac:(discriminate))).
  - apply (proj2 (proj1 (proj2 (two_parameter_check_order (JNumber one) JNull))
                    eq_refl ltac:(discriminate))).
Defined.

Lemma le_not_nan (x y : float64) :
  Js.le x y = true -> is_nan x = false /\ is_nan y = false.
Proof. destruct x, y; simpl; try discriminate; auto. Qed.

Lemma lt_not_nan (x y : float64) :
  Js.lt x y = true -> is_nan x = false /\ is_nan y = false.
Proof. destruct x, y; simpl; try discriminate; auto. Qed.

Lemma new_ValueUniform_inv (a b : JsValue) (v : Value) :
  new_ValueUniform a b = Ok v ->
  exists l h, a = JNumber l /\ b = JNumber h /\ v = ValueUniform l h
              /\ Js.le l h = true /\ is_nan l = false /\ is_nan h = false.
Proof.
  destruct a as [| |?|l|?|?|? ? ? ?]; simpl; try discriminate.
  destruct b as [| |?|h|?|?|? ? ? ?]; simpl; try discriminate.
  destruct (Js.le l h) eqn:Hle; simpl; intros [= <-].
  destruct (le_not_nan l h Hle). eauto 8.
Qed.

Lemma new_ValueExponential_inv (a : JsValue) (v : Value) :
  new_ValueExponential a = Ok v ->
  exists r, a = JNumber r /\ v = ValueExponential r /\ Js.lt zero r = true
            /\ is_nan r = false /\ Js.eq r zero = false.
Proof.
  destruct a as [| |?|r|?|?|? ? ? ?]; simpl; try discriminate.
  destruct (Js.lt zero r) eqn:Hlt; simpl; intros [= <-].
  destruct (lt_not_nan zero r Hlt) as [_ Hr].
  exists r. repeat split; try assumption.
  destruct r as [s|s| |s m e]; try discriminate; try reflexivity.
  - destruct s; [discriminate | reflexivity].
  - destruct s; [discriminate | reflexivity].
Qed.

Lemma new_ValueNormal_inv (a b : JsValue) (v : Value) :
  new_ValueNormal a b = Ok v ->
  exists m s, a = JNumber m /\ b = JNumber s /\ v = ValueNormal m s
              /\ Js.le zero s = true /\ is_nan s = false.
Proof.
  destruct a as [| |?|m|?|?|? ? ? ?]; simpl; try discriminate.
  destruct b as [| |?|s|?|?|? ? ? ?]; simpl; try discriminate.
  destruct (Js.le zero s) eqn:Hle; simpl; intros [= <-].
  destruct (le_not_nan zero s Hle). eauto 8.
Qed.

(** What construction guarantees about a sampling value: the bounds of a
    [Uniform] are ordered, [low <= high], the rate of an [Exponential] is
    positive, the standard deviation of a [Normal] is at least zero; and
    none of these parameters is NaN. *)
Theorem sampling_construction_invariants (a b : JsValue) (v : Value) :
  (new_ValueUniform a b = Ok v ->
   exists l h, v = ValueUniform l h /\ Js.le l h = true
               /\ is_nan l = false /\ is_nan h = false)
  /\ (new_ValueExponential a = Ok v ->
      exists r, v = ValueExponential r /\ Js.lt zero r = true
                /\ is_nan r = false /\ Js.eq r zero = false)
  /\ (new_ValueNormal a b = Ok v ->
      exists m s, v = ValueNormal m s /\ Js.le zero s = true
                  /\ is_nan s = false).
Proof.
  split; [| split]; intros Hv.
  - destruct (new_ValueUniform_inv a b v Hv) as (l & h & _ & _ & H).
    exists l, h. exact H.
  - destruct (new_ValueExponential_inv a v Hv) as (r & _ & H).
    exists r. exact H.
  - destruct (new_ValueNormal_inv a b v Hv) as (m & s & _ & _ & H).
    exists m, s. exact H.
Qed.

Lemma sampling_construction_invariants_witness :
  exists l h, ValueUniform one two = ValueUniform l h /\ Js.le l h = true
              /\ is_nan l = false /\ is_nan h = false.
Proof.
  apply (proj1 (sampling_construction_invariants
                  (JNumber one) (JNumber two) (ValueUniform one two))).
  reflexivity.
Defined.

(** A constructed [Uniform] value is always equal to itself, because its
    constructor rejects NaN bounds; a constructed [Normal] value is equal
    to itself exactly when its mean is not NaN. *)
Theorem constructed_equal_itself (a b : JsValue) (v : Value) :
  (new_ValueUniform a b = Ok v -> equal v v = true)
  /\ (new_ValueNormal a b = Ok v ->
      (equal v v = true <-> a <> JNumber NaN)).
Proof.
  split; intros Hv.
  - destruct (new_ValueUniform_inv a b v Hv)
      as (l & h & _ & _ & -> & _ & Hl & Hh).
    simpl. rewrite !eq_refl_iff, Hl, Hh. reflexivity.
  - destruct (new_ValueNormal_inv a b v Hv)
      as (m & s & -> & _ & -> & _ & Hs).
    simpl. rewrite !eq_refl_iff, Hs.
    unfold NaN. destruct m; simpl; split; congruence.
Qed.

Lemma constructed_equal_itself_witness :
  equal (ValueUniform one two) (ValueUniform one two) = true.
Proof.
  apply (proj1 (constructed_equal_itself
                  (JNumber one) (JNumber two) (ValueUniform one two))).
  reflexivity.
Defined.

(** ** Equality of the classes that define [equal] themselves *)

Definition is_zero (x : float64) : bool :=
  match x with S754_zero _ => true | _ => false end.

(** [x === y] on two numbers: neither is NaN, and they are the same number
    or two zeros (of any signs). *)
Definition same_number (x y : float64) : Prop :=
  is_nan x = false /\ (x = y \/ (is_zero x = true /\ is_zero y = true)).

Lemma eq_true_iff (x y : float64) : Js.eq x y = true <-> same_number x y.
Proof.
  unfold same_number. split.
  - unfold Js.eq, SFeqb.
    destruct x as [sx|sx| |sx mx ex], y as [sy|sy| |sy my ey]; simpl;
      try discriminate; try (intros _; split; auto; fail);
      try (destruct sx; discriminate); try (destruct sy; discriminate).
    + destruct sx, sy; try discriminate; intros _; split; auto.
    + destruct sx, sy; try discriminate;
        destruct (ex ?= ey)%Z eqn:He; try discriminate;
        destruct (Pos.compare_cont Eq mx my) eqn:Hm; try discriminate;
        intros _; apply Z.compare_eq in He; apply Pos.compare_eq in Hm;
        subst; split; auto.
  - intros [Hn [<- | [Hx Hy]]].
    + rewrite eq_refl_iff, Hn. reflexivity.
    + destruct x, y; try discriminate; reflexivity.
Qed.

Lemma same_number_trans (x y z : float64) :
  same_number x y -> same_number y z -> same_number x z.
Proof.
  unfold same_number. intros [Hx [<- | [Zx Zy]]] [Hy [<- | [Zy' Zz]]]; auto.
Qed.

(** The classes whose [equal] method is written in [value.js]. *)
Definition defines_equal (v : Value) : bool :=
  match v with
  | ValueAbsent | ValueMissing | ValueRowNum
  | ValueNormal _ _ | ValueUniform _ _ => true
  | _ => false
  end.

(** [equal] is transitive on the classes that define it themselves. *)
Theorem equal_transitive (u v w : Value) :
  defines_equal u = true ->
  equal u v = true -> equal v w = true -> equal u w = true.
Proof.
  intros Hu Huv Hvw.
  destruct u; try discriminate Hu;
    destruct v; try discriminate Huv;
    destruct w; try discriminate Hvw; try reflexivity;
    simpl in *;
    apply andb_true_iff in Huv as [H1 H2];
    apply andb_true_iff in Hvw as [H3 H4];
    apply andb_true_iff; split; apply eq_true_iff;
    eapply same_number_trans; apply eq_true_iff; eassumption.
Qed.

Lemma equal_transitive_witness :
  equal (ValueUniform zero one) (ValueUniform zero one) = true.
Proof.
  apply (equal_transitive (ValueUniform zero one) (ValueUniform negzero one)
           (ValueUniform zero one) eq_refl eq_refl eq_refl).
Defined.

(** A [Uniform] (or [Normal]) value is equal to exactly the values of its
    own class whose two parameters are the same numbers as its own, where a
    positive and a negative zero count as the same and NaN as different
    from everything. *)
Theorem two_parameter_equal_iff (x y : float64) (w : Value) :
  (equal (ValueUniform x y) w = true
   <-> exists x' y', w = ValueUniform x' y'
                     /\ same_number x x' /\ same_number y y')
  /\ (equal (ValueNormal x y) w = true
      <-> exists x' y', w = ValueNormal x' y'
                        /\ same_number x x' /\ same_number y y').
Proof.
  split; split.
  - destruct w; simpl; try discriminate. intros H.
    apply andb_true_iff in H as [H1 H2].
    apply eq_true_iff in H1, H2. eauto.
  - intros (x' & y' & -> & H1 & H2). simpl.
    apply andb_true_iff. split; apply eq_true_iff; assumption.
  - destruct w; simpl; try discriminate. intros H.
    apply andb_true_iff in H as [H1 H2].
    apply eq_true_iff in H1, H2. eauto.
  - intros (x' & y' & -> & H1 & H2). simpl.
    apply andb_true_iff. split; apply eq_true_iff; assumption.
Qed.

Lemma two_parameter_equal_iff_witness :
  equal (ValueNormal negzero one) (ValueNormal zero one) = true.
Proof.
  apply (proj2 (proj2 (two_parameter_equal_iff negzero one
                         (ValueNormal zero one)))).
  exists zero, one. split; [reflexivity |].
  split; (split; [reflexivity |]); [right | left]; auto.
Defined.

(** ** The exports of the module *)

(** The classes that [value.js] declares. *)
Inductive ValueClass : Type :=
  | ClassAbsent | ClassMissing | ClassRowNum | ClassColumn
  | ClassDatetime | ClassLogical | ClassNumber | ClassText
  | ClassExponential | ClassNormal | ClassUniform.

(** The class a value is an instance of. *)
Definition class_of (v : Value) : ValueClass :=
  match v with
  | ValueAbsent => ClassAbsent
  | ValueMissing => ClassMissing
  | ValueRowNum => ClassRowNum
  | ValueColumn _ => ClassColumn
  | ValueDatetime _ => ClassDatetime
  | ValueLogical _ => ClassLogical
  | ValueNumber _ => ClassNumber
  | ValueText _ => ClassText
  | ValueExponential _ => ClassExponential
  | ValueNormal _ _ => ClassNormal
  | ValueUniform _ _ => ClassUniform
  end.

(** The classes of [module.exports], each under its key, in the order they
    are written ([FAMILY], a string, is the remaining entry). *)
Definition exports : list (string * ValueClass) :=
  [ ("absent", ClassAbsent); ("missing", ClassMissing);
    ("rownum", ClassRowNum); ("column", ClassColumn);
    ("datetime", ClassDatetime); ("logical", ClassLogical);
    ("number", ClassNumber); ("text", ClassText);
    ("exponential", ClassExponential); ("normal", ClassNormal);
    ("uniform", ClassUniform) ].

(** [exports[key]] *)
Fixpoint export (key : string) (table : list (string * ValueClass))
  : option ValueClass :=
  match table with
  | [] => None
  | (k, c) :: rest => if String.eqb key k then Some c else export key rest
  end.

(** Each class is exported under the kind its instances carry: looking up
    the kind of a value in the exports finds the class of that value, and
    two values have the same kind exactly when they are of the same
    class. *)
Theorem exports_by_kind (v w : Value) :
  export (kind v) exports = Some (class_of v)
  /\ (kind v = kind w <-> class_of v = class_of w).
Proof.
  split.
  - destruct v; reflexivity.
  - destruct v, w; simpl; split; intros H; try reflexivity;
      discriminate H.
Qed.
